(** * format-sudoku-simple.py: the sudoku log formatter

    A shallow embedding of [format-sudoku-simple.py].  The script reads
    the lines of standard input, groups the integers it finds into grids
    (the collection loop of [format_sudoku]) and prints the first two
    grids as bordered 9x9 tables ([print_grid]).

    Python values are modelled as follows:
    - [int]  : [Z] (Python integers are unbounded);
    - [str]  : [string], the UTF-8 bytes of the text;
    - [list] : [list];
    - standard output : the [string] of everything written to it;
    - [sys.stdin] : the [list string] of its lines. *)

From Stdlib Require Import List ZArith String Ascii Bool Arith Lia.
From Stdlib Require Import DecimalString DecimalPos.
Import ListNotations.

Local Open Scope string_scope.
Local Open Scope list_scope.
Local Open Scope Z_scope.

(** ** Python builtins used by the script *)

(** The only exception the script handles. *)
Inductive exn : Type := ValueError.

(** [str.strip()] and [int(str)] are not code of the script: the
    collector is written over any implementation of them. *)
Class PyBuiltins : Type := {
  str_strip  : string -> string;
  int_of_str : string -> Z + exn
}.

(** A concrete implementation for ASCII text, following the Python
    reference: [strip] removes leading and trailing white space
    (bytes 9-13, 28-32); [int] accepts surrounding white space, an
    optional sign and decimal digits, where single underscores may
    separate digits. *)
Module Ascii_builtins.

Definition is_space (c : ascii) : bool :=
  let n := nat_of_ascii c in
  ((9 <=? n) && (n <=? 13) || (28 <=? n) && (n <=? 32))%nat.

Definition is_digit (c : ascii) : bool :=
  let n := nat_of_ascii c in ((48 <=? n) && (n <=? 57))%nat.

Definition digit_value (c : ascii) : Z := Z.of_nat (nat_of_ascii c) - 48.

Fixpoint lstrip (s : string) : string :=
  match s with
  | String c rest => if is_space c then lstrip rest else s
  | EmptyString => EmptyString
  end.

Fixpoint rstrip (s : string) : string :=
  match s with
  | String c rest =>
      match rstrip rest with
      | EmptyString => if is_space c then EmptyString else String c EmptyString
      | rest' => String c rest'
      end
  | EmptyString => EmptyString
  end.

Definition strip (s : string) : string := rstrip (lstrip s).

(** Digits with single underscores between them; [after_digit] tells
    whether the previous character was a digit. *)
Fixpoint digits (acc : Z) (after_digit : bool) (s : string) : Z + exn :=
  match s with
  | EmptyString => if after_digit then inl acc else inr ValueError
  | String c rest =>
      if is_digit c then digits (10 * acc + digit_value c) true rest
      else if Ascii.eqb c "_"%char
           then if after_digit then digits acc false rest else inr ValueError
           else inr ValueError
  end.

Definition int (s : string) : Z + exn :=
  match strip s with
  | String "-"%char rest =>
      match digits 0 false rest with
      | inl n => inl (- n)
      | inr e => inr e
      end
  | String "+"%char rest => digits 0 false rest
  | s' => digits 0 false s'
  end.

End Ascii_builtins.

Definition ascii_builtins : PyBuiltins :=
  {| str_strip := Ascii_builtins.strip; int_of_str := Ascii_builtins.int |}.

(** ** The collection loop of [format_sudoku] *)

(** The two lists the loop updates.  ([numbers] is assigned once and
    never read.) *)
Record state : Type := mkState {
  current_grid : list Z;
  grids        : list (list Z)
}.

Definition initial_state : state := mkState [] [].

(** [if xs:] on a list. *)
Definition truthy {A : Type} (xs : list A) : bool :=
  match xs with [] => false | _ :: _ => true end.

(** [len(xs)], as an integer. *)
Definition len {A : Type} (xs : list A) : Z := Z.of_nat (List.length xs).

(** [if not line:] on a string. *)
Definition is_empty (s : string) : bool :=
  match s with EmptyString => true | String _ _ => false end.

Section Collector.

Context {B : PyBuiltins}.

(** The body of [for line in sys.stdin]. *)
Definition step (st : state) (line : string) : state :=
  let line := str_strip line in
  if is_empty line then st                      (* continue *)
  else
    match int_of_str line with
    | inr ValueError => st                      (* except ValueError: continue *)
    | inl num =>
        if num =? 100 then
          mkState []
            (if truthy (current_grid st)
             then grids st ++ [current_grid st]
             else grids st)
        else if num =? 200 then
          mkState []
            (if truthy (current_grid st) && (81 <=? len (current_grid st))
             then grids st ++ [firstn 81 (current_grid st)]
             else grids st)
        else if (num <? 0) || ((100 <=? num) && negb (num =? 200)) then st
        else
          let cur := current_grid st ++ [num] in
          if 81 <=? len cur
          then mkState [] (grids st ++ [firstn 81 cur])
          else mkState cur (grids st)
    end.

(** The whole loop. *)
Definition run (st : state) (lines : list string) : state :=
  fold_left step lines st.

(** The flush after the loop. *)
Definition finish (st : state) : list (list Z) :=
  if truthy (current_grid st) && (81 <=? len (current_grid st))
  then grids st ++ [firstn 81 (current_grid st)]
  else grids st.

(** The state the loop is in after the given lines. *)
Definition state_after (lines : list string) : state :=
  run initial_state lines.

(** The value of [grids] when the printing part starts. *)
Definition collect (lines : list string) : list (list Z) :=
  finish (state_after lines).

(** "The line parses to the integer [v]": it is not blank and [int]
    returns [v]. *)
Definition parses_to (line : string) (v : Z) : Prop :=
  is_empty (str_strip line) = false /\ int_of_str (str_strip line) = inl v.

End Collector.

(** ** Text output *)

(** The line feed. *)
Definition nl : string := String (ascii_of_nat 10) EmptyString.

(** What [print(s)] writes. *)
Definition print (s : string) : string := (s ++ nl)%string.

(** [s * n] on strings. *)
Fixpoint str_repeat (s : string) (n : nat) : string :=
  match n with
  | O => EmptyString
  | S n' => (s ++ str_repeat s n')%string
  end.

(** [str(val)] on an integer: its decimal digits, with a minus sign
    when negative. *)
Definition str_of_int (val : Z) : string :=
  NilZero.string_of_int (Z.to_int val).

(** The format specification [>w]: the text right-aligned in a field
    of [w] characters, padded with spaces, never shortened. *)
Definition format_right (w : nat) (s : string) : string :=
  (str_repeat " " (w - String.length s) ++ s)%string.

(** ** [print_grid] *)

Section Print_grid.

Variable label : string.
Variable grid : list Z.

(** The value of [display_val], already converted to text, for the
    cell of row [i] and column [j]. *)
Definition display_val (i j : nat) : string :=
  let idx := (i * 9 + j)%nat in
  if (idx <? List.length grid)%nat then
    let val := nth idx grid 0 in
    if val =? 0 then "." else str_of_int val
  else ".".

(** The body of [for j in range(9)]. *)
Definition cell_step (i : nat) (row_str : string) (j : nat) : string :=
  let row_str :=
    if ((0 <? j) && (j mod 3 =? 0))%nat then (row_str ++ "| ")%string
    else row_str in
  (row_str ++ (format_right 2 (display_val i j) ++ " "))%string.

(** The value of [row_str] when row [i] is printed. *)
Definition row_text (i : nat) : string :=
  (fold_left (cell_step i) (seq 0 9) "| " ++ "|")%string.

(** The body of [for i in range(9)], on the text written so far. *)
Definition row_step (out : string) (i : nat) : string :=
  let out :=
    if ((0 <? i) && (i mod 3 =? 0))%nat
    then (out ++ print "-----------------------------------")%string
    else out in
  (out ++ print (row_text i))%string.

(** Everything one call writes. *)
Definition print_grid : string :=
  let out := (print (nl ++ str_repeat "=" 37) ++ print label
              ++ print (str_repeat "=" 37))%string in
  let out := fold_left row_step (seq 0 9) out in
  (out ++ print (str_repeat "=" 37) ++ print "")%string.

End Print_grid.

(** ** The printing part of [format_sudoku] *)

Definition label_initial : string := "Начальная сетка:".
Definition label_solved  : string := "Решенная сетка:".
Definition note_missing  : string :=
  (nl ++ "Примечание: Решенная сетка не найдена")%string.

(** The calls the printing part makes, in order. *)
Inductive call : Type :=
| Call_print_grid (label : string) (grid : list Z)
| Call_print (s : string).

Definition display (grids : list (list Z)) : list call :=
  (if 1 <=? len grids
   then [Call_print_grid label_initial (nth 0 grids [])] else [])
  ++
  (if 2 <=? len grids
   then [Call_print_grid label_solved (nth 1 grids [])]
   else if (len grids =? 1) && (len (nth 0 grids []) =? 81)
        then [Call_print note_missing] else []).

(** What a call writes to standard output. *)
Definition written (c : call) : string :=
  match c with
  | Call_print_grid label grid => print_grid label grid
  | Call_print s => print s
  end.

(** The whole script: from the lines of standard input to the text on
    standard output. *)
Definition format_sudoku {B : PyBuiltins} (lines : list string) : string :=
  String.concat "" (map written (display (collect lines))).

(** ** The layout of a printed grid, as the specification words it *)

(** The decimal digits of a number, the most significant first. *)
Fixpoint digits_text (d : Decimal.uint) : string :=
  match d with
  | Decimal.Nil => EmptyString
  | Decimal.D0 d => String "0" (digits_text d)
  | Decimal.D1 d => String "1" (digits_text d)
  | Decimal.D2 d => String "2" (digits_text d)
  | Decimal.D3 d => String "3" (digits_text d)
  | Decimal.D4 d => String "4" (digits_text d)
  | Decimal.D5 d => String "5" (digits_text d)
  | Decimal.D6 d => String "6" (digits_text d)
  | Decimal.D7 d => String "7" (digits_text d)
  | Decimal.D8 d => String "8" (digits_text d)
  | Decimal.D9 d => String "9" (digits_text d)
  end.

(** An integer written in decimal: its digits, after a minus sign when
    it is negative. *)
Definition decimal_text (v : Z) : string :=
  match v with
  | Z0 => "0"
  | Zpos p => digits_text (Pos.to_uint p)
  | Zneg p => String "-" (digits_text (Pos.to_uint p))
  end.

(** The value of a decimal digit: its place among the ten digits. *)
Definition digit_of (c : ascii) : option Z :=
  option_map Z.of_nat (String.index 0 (String c EmptyString) "0123456789").

(** The number a sequence of digits denotes, after the digits already
    read as [acc]. *)
Fixpoint digits_value (acc : Z) (s : string) : option Z :=
  match s with
  | EmptyString => Some acc
  | String c s' =>
      match digit_of c with
      | Some k => digits_value (10 * acc + k) s'
      | None => None
      end
  end.

(** The integer a decimal text denotes: digits, or a minus sign and
    digits. *)
Definition decimal_value (s : string) : option Z :=
  match s with
  | EmptyString => None
  | String "-" EmptyString => None
  | String "-" s' => option_map Z.opp (digits_value 0 s')
  | _ => digits_value 0 s
  end.

(** A text right-aligned in a field of width 2: two spaces for no
    character, one space before a single character, and a longer text
    as it is. *)
Definition right_aligned_2 (s : string) : string :=
  match s with
  | EmptyString => "  "
  | String c EmptyString => String " " (String c EmptyString)
  | _ => s
  end.

Section Layout.

Variable label : string.
Variable grid : list Z.

(** The display value of the cell at row-major index [i*9+j]: the
    stored integer, or the placeholder when the stored value is 0 or
    the index is beyond the grid's length. *)
Definition cell_shown (i j : nat) : string :=
  match nth_error grid (i * 9 + j) with
  | Some 0 => "."
  | Some v => decimal_text v
  | None => "."
  end.

(** A cell: right-aligned in width 2, followed by a space. *)
Definition cell_field (i j : nat) : string :=
  (right_aligned_2 (cell_shown i j) ++ " ")%string.

(** Three consecutive cells of a row, from column [j]. *)
Definition block (i j : nat) : string :=
  (cell_field i j ++ cell_field i (j + 1) ++ cell_field i (j + 2))%string.

(** A row: a leading bar, a bar before columns 3 and 6, a trailing
    bar. *)
Definition layout_row (i : nat) : string :=
  ("| " ++ block i 0 ++ "| " ++ block i 3 ++ "| " ++ block i 6 ++ "|")%string.

(** The printed lines, top to bottom: an empty line, 37 [=], the label,
    37 [=], the nine rows with 35 [-] before rows 3 and 6, 37 [=], an
    empty line. *)
Definition layout_lines : list string :=
  [ "";
    "=====================================";
    label;
    "=====================================";
    layout_row 0; layout_row 1; layout_row 2;
    "-----------------------------------";
    layout_row 3; layout_row 4; layout_row 5;
    "-----------------------------------";
    layout_row 6; layout_row 7; layout_row 8;
    "=====================================";
    "" ].

(** The text: every line followed by a line feed (the character of
    code 10). *)
Definition layout_text : string :=
  fold_right (fun line rest => (line ++ String "010" rest)%string)
    EmptyString layout_lines.

End Layout.

(** ** Invariants of the collection loop *)

(** The buffer is short of a full grid. *)
Definition buffer_short (st : state) : Prop :=
  (List.length (current_grid st) <= 80)%nat.

(** A collected grid is non-empty and has at most 81 cells. *)
Definition grid_sized (g : list Z) : Prop :=
  (1 <= List.length g <= 81)%nat.

(** A stored value is a cell value. *)
Definition cell_value (v : Z) : Prop := 0 <= v <= 99.

(** Every value the state holds is a cell value. *)
Definition values_ok (st : state) : Prop :=
  Forall cell_value (current_grid st) /\ Forall (Forall cell_value) (grids st).

(** The grid [g] was flushed while reading [lines]: by a line that
    parses to 100, as the buffer of 1 to 80 values, or by a line that
    parses to a cell value, as the buffer of 81 values that ends with
    it. *)
Definition flushed_from {B : PyBuiltins} (lines : list string) (g : list Z) : Prop :=
  exists pre line post,
    lines = pre ++ line :: post
    /\ ((parses_to line 100
         /\ g = current_grid (state_after pre)
         /\ (1 <= List.length g <= 80)%nat)
        \/ (exists v, parses_to line v /\ cell_value v
             /\ g = current_grid (state_after pre) ++ [v]
             /\ List.length g = 81%nat)).

(** Two lines are spent on every collected grid, one on a buffer that
    is not empty. *)
Definition lines_spent (st : state) : nat :=
  (2 * List.length (grids st) + (if truthy (current_grid st) then 1 else 0))%nat.

(** [n] copies of a cell line followed by the marker 100. *)
Fixpoint short_blocks (n : nat) : list string :=
  match n with
  | O => []
  | S n' => "1" :: "100" :: short_blocks n'
  end.

(** ** The values of the input *)

(** The integer the loop reads from a line, if any: [None] for a blank
    line and for a line [int] rejects. *)
Definition line_value {B : PyBuiltins} (line : string) : option Z :=
  let line := str_strip line in
  if is_empty line then None
  else match int_of_str line with
       | inl num => Some num
       | inr ValueError => None
       end.

(** The test a value passes to reach [current_grid.append]: it is not a
    marker and not skipped. *)
Definition is_cell (num : Z) : bool :=
  negb (num =? 100) && negb (num =? 200)
  && negb ((num <? 0) || ((100 <=? num) && negb (num =? 200))).

(** The values the loop appends to the buffer, in the order of the
    input. *)
Definition cell_values {B : PyBuiltins} (lines : list string) : list Z :=
  flat_map (fun line =>
              match line_value line with
              | Some num => if is_cell num then [num] else []
              | None => []
              end) lines.

(** The line is one of the two markers. *)
Definition is_marker {B : PyBuiltins} (line : string) : Prop :=
  parses_to line 100 \/ parses_to line 200.

(** ** Sample inputs *)

(** A cell and the marker 100. *)
Definition lines_short_grid : list string := ["5"; "100"].

(** Three cells, each followed by the marker 100. *)
Definition lines_three_grids : list string := short_blocks 3.

(** 81 cells and no marker. *)
Definition lines_81_cells : list string := repeat "7" 81.

(** The marker 100, 81 cells, the marker 200, 81 cells. *)
Definition lines_two_grids : list string :=
  "100" :: repeat "3" 81 ++ "200" :: repeat "4" 81.

(** * Properties of the collection loop *)

(** Splits a [Forall] goal over appended and consed lists. *)
Ltac forall_pieces :=
  repeat first [ assumption | apply Forall_nil | apply Forall_cons
               | apply Forall_app; split ].

(** Markers, a padded cell, a word and noise values. *)
Example collect_two_blocks :
  collect (B := ascii_builtins) ["100"; "5"; "100"; "7"; " 8 "; "hello"; "-1"; "150"; "100"]
  = [[5]; [7; 8]].
Proof. reflexivity. Qed.

Section Collector_facts.

Context {B : PyBuiltins}.

Lemma truthy_length {A : Type} (xs : list A) :
  truthy xs = true <-> (1 <= List.length xs)%nat.
Proof.
  destruct xs; simpl; split; intros H; try reflexivity; try discriminate; lia.
Qed.

Lemma truthy_false {A : Type} (xs : list A) : truthy xs = false <-> xs = [].
Proof. destruct xs; simpl; split; congruence. Qed.

Lemma run_snoc st lines line :
  run st (lines ++ [line]) = step (run st lines) line.
Proof. unfold run. now rewrite fold_left_app. Qed.

Lemma run_app st xs ys : run st (xs ++ ys) = run (run st xs) ys.
Proof. unfold run. now rewrite fold_left_app. Qed.

(** The four ways a line is treated. *)
Lemma step_cases st line :
  step st line = st
  \/ (parses_to line 100 /\
      step st line =
        mkState [] (if truthy (current_grid st)
                    then grids st ++ [current_grid st] else grids st))
  \/ (parses_to line 200 /\
      step st line =
        mkState [] (if truthy (current_grid st) && (81 <=? len (current_grid st))
                    then grids st ++ [firstn 81 (current_grid st)]
                    else grids st))
  \/ (exists v, parses_to line v /\ cell_value v /\
      step st line =
        if 81 <=? len (current_grid st ++ [v])
        then mkState [] (grids st ++ [firstn 81 (current_grid st ++ [v])])
        else mkState (current_grid st ++ [v]) (grids st)).
Proof.
  unfold step, parses_to, cell_value.
  destruct (is_empty (str_strip line)) eqn:Hblank; [now left|].
  destruct (int_of_str (str_strip line)) as [num|[]] eqn:Hint; [|now left].
  destruct (Z.eqb_spec num 100) as [->|H100]; [right; left; now split|].
  destruct (Z.eqb_spec num 200) as [->|H200]; [right; right; left; now split|].
  destruct (Z.ltb_spec num 0) as [Hneg|Hpos]; simpl; [now left|].
  destruct (Z.leb_spec 100 num) as [Hbig|Hsmall]; simpl; [now left|].
  right; right; right. exists num. split; [now split|]. split; [lia|reflexivity].
Qed.

(** On a short buffer the 200 marker and the last append behave as
    follows. *)
Lemma step_cases_short st line :
  buffer_short st ->
  step st line = st
  \/ (parses_to line 100 /\ current_grid st = [] /\
      step st line = mkState [] (grids st))
  \/ (parses_to line 100 /\ grid_sized (current_grid st) /\
      (List.length (current_grid st) <= 80)%nat /\
      step st line = mkState [] (grids st ++ [current_grid st]))
  \/ (parses_to line 200 /\ step st line = mkState [] (grids st))
  \/ (exists v, parses_to line v /\ cell_value v /\
      (List.length (current_grid st) < 80)%nat /\
      step st line = mkState (current_grid st ++ [v]) (grids st))
  \/ (exists v, parses_to line v /\ cell_value v /\
      List.length (current_grid st ++ [v]) = 81%nat /\
      step st line = mkState [] (grids st ++ [current_grid st ++ [v]])).
Proof.
  unfold buffer_short, grid_sized. intros Hshort.
  destruct (step_cases st line) as [H|[[Hp H]|[[Hp H]|[v [Hp [Hv H]]]]]].
  - now left.
  - destruct (truthy (current_grid st)) eqn:Ht.
    + right; right; left. apply truthy_length in Ht.
      split; [exact Hp|]. split; [lia|]. split; [lia|exact H].
    + right; left. apply truthy_false in Ht. now split.
  - right; right; right; left. split; trivial.
    rewrite H. destruct (Z.leb_spec 81 (len (current_grid st))) as [Hge|_].
    + unfold len in Hge. lia.
    + now rewrite andb_false_r.
  - right; right; right; right.
    assert (Hlen : List.length (current_grid st ++ [v])
                   = S (List.length (current_grid st)))
      by (rewrite length_app; simpl; lia).
    destruct (Z.leb_spec 81 (len (current_grid st ++ [v]))) as [Hge|Hlt];
      unfold len in Hge || unfold len in Hlt.
    + right. exists v. split; [exact Hp|]. split; [exact Hv|]. split; [lia|].
      rewrite H. rewrite firstn_all2; trivial. lia.
    + left. exists v. split; [exact Hp|]. split; [exact Hv|]. split; [lia|exact H].
Qed.

Lemma step_buffer_short st line :
  buffer_short st -> buffer_short (step st line).
Proof.
  intros Hs.
  destruct (step_cases_short st line Hs)
    as [H|[[_ [_ H]]|[[_ [_ [_ H]]]|[[_ H]|[[v [_ [_ [Hl H]]]]|[v [_ [_ [_ H]]]]]]]]];
    rewrite H; trivial; unfold buffer_short; simpl; try lia.
  rewrite length_app; simpl; lia.
Qed.

Lemma run_buffer_short lines :
  forall st, buffer_short st -> buffer_short (run st lines).
Proof.
  induction lines as [|line lines IH]; intros st Hs; simpl; trivial.
  apply IH, step_buffer_short, Hs.
Qed.

Lemma initial_buffer_short : buffer_short initial_state.
Proof. unfold buffer_short; simpl; lia. Qed.

Lemma reachable_buffer_short lines : buffer_short (state_after lines).
Proof. apply (run_buffer_short lines), initial_buffer_short. Qed.

(** With a short buffer the flush after the loop adds nothing. *)
Lemma finish_short st : buffer_short st -> finish st = grids st.
Proof.
  unfold buffer_short, finish. intros Hs.
  destruct (Z.leb_spec 81 (len (current_grid st))) as [Hge|_].
  - unfold len in Hge. lia.
  - now rewrite andb_false_r.
Qed.

Lemma collect_grids lines : collect lines = grids (state_after lines).
Proof. apply finish_short, reachable_buffer_short. Qed.

End Collector_facts.

Section Collector_invariants.

Context {B : PyBuiltins}.

Lemma step_grids_sized st line :
  buffer_short st ->
  Forall grid_sized (grids st) -> Forall grid_sized (grids (step st line)).
Proof.
  intros Hs Hg.
  destruct (step_cases_short st line Hs)
    as [H|[[_ [_ H]]|[[_ [Hsz [_ H]]]|[[_ H]|[[v [_ [_ [_ H]]]]|[v [_ [_ [Hl H]]]]]]]]];
    rewrite H; simpl; forall_pieces.
  unfold grid_sized. lia.
Qed.

Lemma step_values_ok st line :
  buffer_short st -> values_ok st -> values_ok (step st line).
Proof.
  intros Hs [Hc Hg]. unfold values_ok.
  destruct (step_cases_short st line Hs)
    as [H|[[_ [_ H]]|[[_ [_ [_ H]]]|[[_ H]|[[v [_ [Hv [_ H]]]]|[v [_ [Hv [_ H]]]]]]]]];
    rewrite H; simpl; split; forall_pieces.
Qed.

Lemma step_lines_spent st line :
  buffer_short st -> (lines_spent (step st line) <= lines_spent st + 1)%nat.
Proof.
  intros Hs. unfold lines_spent.
  destruct (step_cases_short st line Hs)
    as [H|[[_ [_ H]]|[[_ [Hsz [_ H]]]|[[_ H]|[[v [_ [_ [_ H]]]]|[v [_ [_ [Hl H]]]]]]]]];
    rewrite H; cbn [grids current_grid truthy];
    try rewrite length_app; cbn [List.length].
  - lia.
  - destruct (truthy (current_grid st)); lia.
  - destruct Hsz as [Hsz _]. apply truthy_length in Hsz. rewrite Hsz. lia.
  - destruct (truthy (current_grid st)); lia.
  - destruct (truthy (current_grid st ++ [v])), (truthy (current_grid st)); lia.
  - rewrite length_app in Hl. cbn [List.length] in Hl.
    assert (Ht : truthy (current_grid st) = true) by (apply truthy_length; lia).
    rewrite Ht. lia.
Qed.

(** The three invariants along a run. *)
Lemma run_invariant lines :
  forall st,
    buffer_short st -> Forall grid_sized (grids st) -> values_ok st ->
    buffer_short (run st lines)
    /\ Forall grid_sized (grids (run st lines))
    /\ values_ok (run st lines)
    /\ (lines_spent (run st lines) <= lines_spent st + List.length lines)%nat.
Proof.
  induction lines as [|line lines IH]; intros st Hs Hg Hv; simpl.
  - repeat split; trivial; try apply Hv. lia.
  - destruct (IH (step st line)) as [H1 [H2 [H3 H4]]].
    + now apply step_buffer_short.
    + now apply step_grids_sized.
    + now apply step_values_ok.
    + repeat split; trivial; try apply H3.
      pose proof (step_lines_spent st line Hs). lia.
Qed.

Lemma reachable_invariant lines :
  buffer_short (state_after lines)
  /\ Forall grid_sized (grids (state_after lines))
  /\ values_ok (state_after lines)
  /\ (lines_spent (state_after lines) <= List.length lines)%nat.
Proof.
  apply (run_invariant lines initial_state).
  - apply initial_buffer_short.
  - constructor.
  - split; constructor.
Qed.

End Collector_invariants.

Section Collector_lines.

Context {B : PyBuiltins}.

(** A line that parses to the marker 100. *)
Lemma step_marker_100 st line :
  parses_to line 100 ->
  step st line =
    mkState [] (if truthy (current_grid st)
                then grids st ++ [current_grid st] else grids st).
Proof. intros [Hb Hi]. unfold step. now rewrite Hb, Hi. Qed.

(** A line that parses to the marker 200. *)
Lemma step_marker_200 st line :
  parses_to line 200 ->
  step st line =
    mkState [] (if truthy (current_grid st) && (81 <=? len (current_grid st))
                then grids st ++ [firstn 81 (current_grid st)]
                else grids st).
Proof. intros [Hb Hi]. unfold step. now rewrite Hb, Hi. Qed.

(** A line that parses to a cell value. *)
Lemma step_cell st line v :
  parses_to line v -> cell_value v ->
  step st line =
    if 81 <=? len (current_grid st ++ [v])
    then mkState [] (grids st ++ [firstn 81 (current_grid st ++ [v])])
    else mkState (current_grid st ++ [v]) (grids st).
Proof.
  intros [Hb Hi] Hv. unfold cell_value in Hv. unfold step. rewrite Hb, Hi.
  destruct (Z.eqb_spec v 100); [lia|].
  destruct (Z.eqb_spec v 200); [lia|].
  destruct (Z.ltb_spec v 0); [lia|].
  destruct (Z.leb_spec 100 v); [lia|]. reflexivity.
Qed.

(** A line that is blank, does not parse, or parses to noise. *)
Lemma step_skip st line :
  is_empty (str_strip line) = true
  \/ int_of_str (str_strip line) = inr ValueError
  \/ (exists v, parses_to line v /\ (v < 0 \/ (100 <= v /\ v <> 100 /\ v <> 200))) ->
  step st line = st.
Proof.
  unfold step. intros [Hb|[Hi|[v [[Hb Hi] Hv]]]].
  - now rewrite Hb.
  - rewrite Hi. now destruct (is_empty (str_strip line)).
  - rewrite Hb, Hi.
    destruct (Z.eqb_spec v 100); [lia|].
    destruct (Z.eqb_spec v 200); [lia|].
    destruct (Z.ltb_spec v 0); [reflexivity|].
    destruct (Z.leb_spec 100 v); [reflexivity|lia].
Qed.

(** Cell lines that do not fill the buffer only extend it. *)
Lemma run_cells lines :
  forall vals st,
    Forall2 parses_to lines vals -> Forall cell_value vals ->
    (List.length (current_grid st) + List.length vals <= 80)%nat ->
    run st lines = mkState (current_grid st ++ vals) (grids st).
Proof.
  induction lines as [|line lines IH]; intros vals st Hp Hv Hl;
    inversion Hp as [|? v ? vals' Hline Hrest]; subst; simpl.
  - rewrite app_nil_r. now destruct st.
  - inversion Hv as [|? ? Hv1 Hv2]; subst. simpl in Hl.
    rewrite (step_cell st line v Hline Hv1).
    destruct (Z.leb_spec 81 (len (current_grid st ++ [v]))) as [Hge|_].
    + unfold len in Hge. rewrite length_app in Hge. simpl in Hge. lia.
    + rewrite (IH vals' _ Hrest Hv2); simpl.
      * now rewrite <- app_assoc.
      * rewrite length_app. simpl. lia.
Qed.

Lemma state_after_snoc lines line :
  state_after (lines ++ [line]) = step (state_after lines) line.
Proof. apply run_snoc. Qed.

(** A line that leaves the state as it is can be dropped. *)
Lemma collect_skip_line pre line post :
  step (state_after pre) line = state_after pre ->
  collect (pre ++ line :: post) = collect (pre ++ post).
Proof.
  intros H. unfold collect, state_after in *. rewrite !run_app. simpl.
  fold (run initial_state pre). now rewrite H.
Qed.

End Collector_lines.

(** The blocks of [short_blocks] give one grid each. *)
Lemma run_short_blocks n :
  forall gs,
    run (B := ascii_builtins) (mkState [] gs) (short_blocks n)
    = mkState [] (gs ++ repeat [1] n).
Proof.
  induction n as [|n IH]; intros gs; simpl.
  - now rewrite app_nil_r.
  - change (run (B := ascii_builtins) (mkState [] (gs ++ [[1]])) (short_blocks n)
            = mkState [] (gs ++ [1] :: repeat [1] n)).
    rewrite IH. now rewrite <- app_assoc.
Qed.

(** * The collector *)

(** C1, as stated, fails: three cells, each followed by the marker 100,
    give three grids. *)
Lemma collect_three_grids :
  ~ (List.length (collect (B := ascii_builtins) lines_three_grids) <= 2)%nat.
Proof. vm_compute. intros H. repeat (apply le_S_n in H). inversion H. Qed.

(** C1, amended: the collector produces an ordered sequence of grids
    whose number is not bounded by 2; a grid takes at least two input
    lines, so [n] lines give at most [n/2] grids, and for every [n]
    there is an input of [2n] lines that gives exactly [n] grids. *)
Theorem collect_count_bound :
  (forall (B : PyBuiltins) (lines : list string),
      (2 * List.length (collect lines) <= List.length lines)%nat)
  /\ (forall n : nat,
         List.length (short_blocks n) = (2 * n)%nat
         /\ collect (B := ascii_builtins) (short_blocks n) = repeat [1] n).
Proof.
  split.
  - intros B lines. rewrite collect_grids.
    destruct (reachable_invariant lines) as [_ [_ [_ H]]].
    unfold lines_spent in H. lia.
  - intros n. split.
    + induction n as [|n IH]; simpl; lia.
    + rewrite collect_grids. unfold state_after, initial_state.
      now rewrite run_short_blocks.
Qed.

(** C2, as stated, fails: a cell followed by the marker 100 gives a grid
    of one cell. *)
Lemma collected_grid_of_one_cell :
  ~ Forall (fun g => List.length g = 81%nat)
      (collect (B := ascii_builtins) lines_short_grid).
Proof. vm_compute. intros H. inversion H as [|? ? Hlen _]. discriminate Hlen. Qed.

(** C2, amended: whenever a line makes the loop append a grid, that grid
    is the whole buffer of that moment, nothing cut off: either the
    line is the marker 100 and the grid is the buffer, of 1 to 80
    values, or the line is a cell value and the grid is the buffer with
    that value, of exactly 81 values.  Every collected grid has between
    1 and 81 cells. *)
Theorem appended_grid_is_buffer (B : PyBuiltins) :
  (forall (pre : list string) (line : string),
      grids (step (state_after pre) line) = grids (state_after pre)
      \/ (parses_to line 100
          /\ (1 <= List.length (current_grid (state_after pre)) <= 80)%nat
          /\ grids (step (state_after pre) line)
             = grids (state_after pre) ++ [current_grid (state_after pre)])
      \/ (exists v, parses_to line v /\ cell_value v
          /\ List.length (current_grid (state_after pre) ++ [v]) = 81%nat
          /\ grids (step (state_after pre) line)
             = grids (state_after pre) ++ [current_grid (state_after pre) ++ [v]]))
  /\ (forall lines : list string, Forall grid_sized (collect lines)).
Proof.
  split.
  - intros pre line.
    destruct (step_cases_short (state_after pre) line (reachable_buffer_short pre))
      as [H|[[_ [_ H]]|[[Hp [Hsz [Hl H]]]|[[_ H]|[[v [_ [_ [_ H]]]]|[v [Hp [Hv [Hl H]]]]]]]]];
      rewrite H; simpl; auto.
    + right; left. unfold grid_sized in Hsz.
      split; [exact Hp|]. split; [lia|reflexivity].
    + right; right. exists v. auto.
  - intros lines. rewrite collect_grids. apply reachable_invariant.
Qed.

(** The grids collected from [lines] all come from a flush. *)
Lemma collect_flushed_from (B : PyBuiltins) (lines : list string) :
  Forall (flushed_from lines) (collect lines).
Proof.
  rewrite collect_grids.
  induction lines as [|line lines IH] using rev_ind; [constructor|].
  assert (Hold : Forall (flushed_from (lines ++ [line])) (grids (state_after lines))).
  { eapply Forall_impl; [|exact IH].
    intros g (pre & l & post & Heq & Hg).
    exists pre, l, (post ++ [line]). split; [|exact Hg].
    rewrite Heq, <- app_assoc. reflexivity. }
  rewrite state_after_snoc.
  destruct (step_cases_short (state_after lines) line (reachable_buffer_short lines))
    as [H|[[_ [_ H]]|[[Hp [Hsz [Hl H]]]|[[_ H]|[[v [_ [_ [_ H]]]]|[v [Hp [Hv [Hl H]]]]]]]]];
    rewrite H; simpl; trivial; apply Forall_app; split; trivial;
    constructor; try constructor; exists lines, line, []; split; trivial.
  - left. unfold grid_sized in Hsz. split; [exact Hp|]. split; [reflexivity|lia].
  - right. exists v. auto.
Qed.

(** C4: after every line the buffer holds at most 80 values, so the
    guard "buffer length >= 81" of the flush at the marker 200 and of
    the flush at the end of the input is false: neither appends a grid.
    Every collected grid comes from a flush at the marker 100, with 1
    to 80 values, or from a cell value that completes 81 values; every
    grid of the final collection is non-empty and has at most 81
    cells. *)
Theorem buffer_never_full (B : PyBuiltins) (lines : list string) :
  (List.length (current_grid (state_after lines)) <= 80)%nat
  /\ (forall line : string,
         parses_to line 200 ->
         step (state_after lines) line = mkState [] (grids (state_after lines)))
  /\ collect lines = grids (state_after lines)
  /\ Forall (flushed_from lines) (collect lines)
  /\ Forall grid_sized (collect lines).
Proof.
  pose proof (reachable_buffer_short lines) as Hs.
  split; [exact Hs|]. split; [|split; [|split]].
  - intros line Hp. rewrite (step_marker_200 _ _ Hp).
    unfold buffer_short in Hs.
    destruct (Z.leb_spec 81 (len (current_grid (state_after lines)))) as [Hge|_].
    + unfold len in Hge. lia.
    + now rewrite andb_false_r.
  - apply collect_grids.
  - apply collect_flushed_from.
  - rewrite collect_grids. apply reachable_invariant.
Qed.

Lemma buffer_never_full_witness :
  step (B := ascii_builtins) (state_after (B := ascii_builtins) ["1"; "2"]) "200"
  = mkState [] [].
Proof.
  apply (buffer_never_full ascii_builtins ["1"; "2"]). split; reflexivity.
Defined.

(** C5: a line that parses to 100 appends the buffer, when it is not
    empty, to the collection exactly as it stands; the buffer is empty
    afterwards in both cases; the value 100 is stored nowhere: the new
    state holds the values of the old one only, and no collected grid
    ever contains 100. *)
Theorem marker_100_flushes_buffer (B : PyBuiltins) (st : state) (line : string)
    (lines : list string) :
  parses_to line 100 ->
  step st line =
    mkState [] (if truthy (current_grid st)
                then grids st ++ [current_grid st] else grids st)
  /\ current_grid (step st line) = []
  /\ List.concat (grids (step st line)) = List.concat (grids st) ++ current_grid st
  /\ Forall (fun g => ~ In 100 g) (collect lines).
Proof.
  intros Hp. rewrite (step_marker_100 st line Hp). simpl.
  split; [reflexivity|]. split; [reflexivity|]. split.
  - destruct (current_grid st) as [|x xs]; simpl.
    + now rewrite app_nil_r.
    + rewrite concat_app. simpl. now rewrite app_nil_r.
  - rewrite collect_grids.
    destruct (reachable_invariant lines) as [_ [_ [[_ Hv] _]]].
    eapply Forall_impl; [|exact Hv].
    intros g Hg Hin. rewrite Forall_forall in Hg.
    apply Hg in Hin. unfold cell_value in Hin. lia.
Qed.

Lemma marker_100_flushes_buffer_witness :
  step (B := ascii_builtins) (mkState [4; 0; 9] [[1; 2]]) " 100 "
  = mkState [] [[1; 2]; [4; 0; 9]].
Proof.
  apply (marker_100_flushes_buffer ascii_builtins (mkState [4; 0; 9] [[1; 2]])
           " 100 " lines_short_grid).
  split; reflexivity.
Defined.

(** C6: 81 lines, each of which parses to an integer from 0 to 99, give
    exactly one grid: those 81 values in the order of the input. *)
Theorem cells_81_one_grid (B : PyBuiltins) (lines : list string) (vals : list Z) :
  List.length lines = 81%nat ->
  Forall2 parses_to lines vals ->
  Forall cell_value vals ->
  collect lines = [vals].
Proof.
  intros Hlen Hp Hv.
  destruct (exists_last (l := lines)) as (front & line & ->);
    [intros ->; discriminate|].
  apply Forall2_app_inv_l in Hp as (vfront & vlast & Hfront & Hlast & ->).
  inversion Hlast as [|? v ? ? Hline Hnil]; subst. inversion Hnil; subst.
  apply Forall_app in Hv as [Hvf Hvl]. inversion Hvl as [|? ? Hv1 _]; subst.
  rewrite length_app in Hlen. simpl in Hlen.
  pose proof (Forall2_length Hfront) as Hsame.
  rewrite collect_grids, state_after_snoc. unfold state_after.
  rewrite (run_cells front vfront initial_state Hfront Hvf); [|simpl; lia].
  rewrite (step_cell _ _ _ Hline Hv1). cbn [current_grid grids initial_state app].
  destruct (Z.leb_spec 81 (len (vfront ++ [v]))) as [_|Hlt].
  - rewrite firstn_all2; [reflexivity|].
    rewrite length_app. simpl. lia.
  - unfold len in Hlt. rewrite length_app in Hlt. simpl in Hlt. lia.
Qed.

Lemma cells_81_one_grid_witness :
  collect (B := ascii_builtins) lines_81_cells = [repeat 7 81].
Proof.
  apply (cells_81_one_grid ascii_builtins lines_81_cells (repeat 7 81)).
  - reflexivity.
  - unfold lines_81_cells. simpl repeat.
    repeat (apply Forall2_cons; [split; reflexivity|]). apply Forall2_nil.
  - simpl repeat.
    repeat (apply Forall_cons; [unfold cell_value; lia|]). apply Forall_nil.
Defined.

(** C9: a line that is blank, that is not an integer, or that parses to
    a negative value or to a value of 100 or more other than 100 and
    200, leaves the buffer and the collection as they are; nothing is
    raised and nothing is written: the output of the script is the one
    it gives without that line. *)
Theorem noise_line_ignored (B : PyBuiltins) (st : state) (line : string)
    (pre post : list string) :
  is_empty (str_strip line) = true
  \/ int_of_str (str_strip line) = inr ValueError
  \/ (exists v, parses_to line v /\ (v < 0 \/ (100 <= v /\ v <> 100 /\ v <> 200))) ->
  step st line = st
  /\ collect (pre ++ line :: post) = collect (pre ++ post)
  /\ format_sudoku (pre ++ line :: post) = format_sudoku (pre ++ post).
Proof.
  intros H. split; [now apply step_skip|].
  assert (Hc : collect (pre ++ line :: post) = collect (pre ++ post))
    by (apply collect_skip_line; now apply step_skip).
  split; [exact Hc|]. unfold format_sudoku. now rewrite Hc.
Qed.

Lemma noise_line_ignored_witness :
  step (B := ascii_builtins) (mkState [4; 0; 9] [[1; 2]]) "150"
  = mkState [4; 0; 9] [[1; 2]].
Proof.
  apply (noise_line_ignored ascii_builtins (mkState [4; 0; 9] [[1; 2]]) "150"
           ["1"] ["2"]).
  right; right. exists 150. split; [split; reflexivity|]. right. lia.
Defined.

(** * The printing part *)

Lemma display_nil : display [] = [].
Proof. reflexivity. Qed.

Lemma display_one (g : list Z) :
  display [g] =
    Call_print_grid label_initial g
    :: (if len g =? 81 then [Call_print note_missing] else []).
Proof. reflexivity. Qed.

Lemma display_many (g0 g1 : list Z) (rest : list (list Z)) :
  display (g0 :: g1 :: rest) =
    [Call_print_grid label_initial g0; Call_print_grid label_solved g1].
Proof.
  unfold display, len. cbn [List.length nth].
  destruct (Z.leb_spec 1 (Z.of_nat (S (S (List.length rest))))); [|lia].
  destruct (Z.leb_spec 2 (Z.of_nat (S (S (List.length rest))))); [|lia].
  reflexivity.
Qed.

(** C3, as stated, fails: the label of the first grid is not the text
    "Initial grid:". *)
Lemma label_initial_is_not_english :
  ~ In (Call_print_grid "Initial grid:" [5])
       (display (collect (B := ascii_builtins) lines_short_grid)).
Proof.
  change (~ In (Call_print_grid "Initial grid:" [5])
               [Call_print_grid label_initial [5]]).
  intros [H|[]]. discriminate H.
Qed.

(** C3, amended: whenever at least one grid is collected the first one
    is printed under the label "Начальная сетка:" (Russian for "Initial
    grid:"), and whenever at least two are collected the second one is
    printed under the label "Решенная сетка:" ("Solved grid:"). *)
Theorem display_labels (gs : list (list Z)) :
  ((1 <= List.length gs)%nat ->
   In (Call_print_grid "Начальная сетка:" (nth 0 gs [])) (display gs))
  /\ ((2 <= List.length gs)%nat ->
      In (Call_print_grid "Решенная сетка:" (nth 1 gs [])) (display gs)).
Proof.
  destruct gs as [|g0 [|g1 rest]].
  - split; simpl; lia.
  - split; [intros _; rewrite display_one; left; reflexivity | simpl; lia].
  - rewrite display_many. split; intros _; simpl; auto.
Qed.

Lemma display_labels_witness :
  In (Call_print_grid "Начальная сетка:" (repeat 3 81))
     (display (collect (B := ascii_builtins) lines_two_grids))
  /\ In (Call_print_grid "Решенная сетка:" (repeat 4 81))
        (display (collect (B := ascii_builtins) lines_two_grids)).
Proof.
  split.
  - apply (proj1 (display_labels (collect (B := ascii_builtins) lines_two_grids))).
    vm_compute. lia.
  - apply (proj2 (display_labels (collect (B := ascii_builtins) lines_two_grids))).
    vm_compute. lia.
Defined.

(** C7: the note that the solved grid is missing, a line feed and the
    text "Примечание: Решенная сетка не найдена" ("Note: solved grid
    not found"), is printed if and only if exactly one grid was
    collected and it has exactly 81 cells; one grid of fewer cells
    gives no note. *)
Theorem note_iff_one_full_grid (gs : list (list Z)) :
  In (Call_print (String "010" "Примечание: Решенная сетка не найдена"))
     (display gs)
  <-> List.length gs = 1%nat /\ List.length (nth 0 gs []) = 81%nat.
Proof.
  destruct gs as [|g0 [|g1 rest]].
  - simpl. split; [tauto|]. intros [H _]. discriminate H.
  - rewrite display_one. cbn [nth List.length]. unfold len.
    destruct (Z.eqb_spec (Z.of_nat (List.length g0)) 81) as [He|Hne].
    + split; [intros _; split; [reflexivity|lia] | intros _; right; left; reflexivity].
    + split.
      * intros [H|[]]. discriminate H.
      * intros [_ H]. lia.
  - rewrite display_many. split.
    + intros [H|[H|[]]]; discriminate H.
    + intros [H _]. discriminate H.
Qed.

Lemma note_iff_one_full_grid_witness :
  In (Call_print (String "010" "Примечание: Решенная сетка не найдена"))
     (display (collect (B := ascii_builtins) lines_81_cells)).
Proof.
  apply (proj2 (note_iff_one_full_grid (collect (B := ascii_builtins) lines_81_cells))).
  split; reflexivity.
Defined.

(** One grid of a single cell: the table and no note. *)
Example display_short_grid :
  display (collect (B := ascii_builtins) lines_short_grid)
  = [Call_print_grid label_initial [5]].
Proof. reflexivity. Qed.

(** C10: when more than two grids are collected, the first is printed
    as the initial grid, the second as the solved grid, and nothing
    else is printed: the grids from the third on have no effect. *)
Theorem display_ignores_third (gs : list (list Z)) :
  (2 < List.length gs)%nat ->
  display gs =
    [Call_print_grid label_initial (nth 0 gs []);
     Call_print_grid label_solved (nth 1 gs [])]
  /\ display gs = display (firstn 2 gs).
Proof.
  destruct gs as [|g0 [|g1 rest]]; simpl List.length; try lia.
  intros _. cbn [firstn nth]. now rewrite !display_many.
Qed.

Lemma display_ignores_third_witness :
  display (collect (B := ascii_builtins) lines_three_grids)
  = [Call_print_grid label_initial [1]; Call_print_grid label_solved [1]].
Proof.
  apply (display_ignores_third (collect (B := ascii_builtins) lines_three_grids)).
  vm_compute. lia.
Defined.

(** Two full grids between markers: two tables on standard output. *)
Example format_sudoku_two_grids :
  format_sudoku (B := ascii_builtins) lines_two_grids
  = (print_grid label_initial (repeat 3 81)
     ++ print_grid label_solved (repeat 4 81))%string.
Proof. vm_compute. reflexivity. Qed.

(** 81 cells and no marker: one table, then the note. *)
Example format_sudoku_81_cells :
  format_sudoku (B := ascii_builtins) lines_81_cells
  = (print_grid label_initial (repeat 7 81) ++ print note_missing)%string.
Proof. vm_compute. reflexivity. Qed.

(** * [print_grid] *)

Lemma str_app_assoc (a b c : string) : ((a ++ b) ++ c = a ++ (b ++ c))%string.
Proof. induction a as [|x a IH]; simpl; [reflexivity|now rewrite IH]. Qed.

Lemma str_app_nil_r (a : string) : (a ++ "" = a)%string.
Proof. induction a as [|x a IH]; simpl; [reflexivity|now rewrite IH]. Qed.

(** [print] ends the text with the character of code 10. *)
Lemma print_line_feed (s : string) : print s = (s ++ String "010" "")%string.
Proof. reflexivity. Qed.

(** The format [>2] on the three shapes of a text. *)
Lemma format_right_2 (s : string) : format_right 2 s = right_aligned_2 s.
Proof. destruct s as [|a [|b s]]; reflexivity. Qed.

Lemma string_of_uint_digits (d : Decimal.uint) :
  NilEmpty.string_of_uint d = digits_text d.
Proof. induction d; simpl; now rewrite ?IHd. Qed.

(** [str] gives the decimal text. *)
Lemma str_of_int_decimal (v : Z) : str_of_int v = decimal_text v.
Proof.
  unfold str_of_int. destruct v as [|p|p]; [reflexivity| |]; simpl;
    pose proof (DecimalPos.Unsigned.to_uint_nonnil p) as Hn;
    unfold NilZero.string_of_uint;
    destruct (Pos.to_uint p) eqn:E; try contradiction;
    now rewrite string_of_uint_digits.
Qed.

(** Evaluates [digit_of] on the character in the goal. *)
Ltac digit_of_char :=
  match goal with
  | |- context [digit_of ?c] =>
      let v := eval vm_compute in (digit_of c) in
      change (digit_of c) with v; cbv iota beta
  end.

(** Reading digits after a positive number already read. *)
Lemma digits_value_acc (d : Decimal.uint) :
  forall p : positive,
    digits_value (Zpos p) (digits_text d) = Some (Zpos (Pos.of_uint_acc d p)).
Proof.
  induction d; intros p;
    cbn [digits_text digits_value Pos.of_uint_acc]; [reflexivity|..];
    digit_of_char;
    match goal with
    | |- digits_value ?x _ = Some (Zpos (Pos.of_uint_acc _ ?q)) =>
        replace x with (Zpos q) by lia
    end; apply IHd.
Qed.

Lemma digits_value_of_uint (d : Decimal.uint) :
  digits_value 0 (digits_text d) = Some (Z.of_N (Pos.of_uint d)).
Proof.
  induction d; cbn [digits_text digits_value Pos.of_uint Z.of_N];
    [reflexivity|..]; digit_of_char; [exact IHd|..]; apply digits_value_acc.
Qed.

Lemma digits_text_first (p : positive) :
  exists c s, digits_text (Pos.to_uint p) = String c s /\ digit_of c <> None.
Proof.
  pose proof (DecimalPos.Unsigned.to_uint_nonnil p) as Hn.
  destruct (Pos.to_uint p); try contradiction; cbn [digits_text];
    eexists; eexists; (split; [reflexivity|vm_compute; discriminate]).
Qed.

(** A text that starts with a digit is read as digits. *)
Lemma decimal_value_digits (c : ascii) (s : string) :
  digit_of c <> None -> decimal_value (String c s) = digits_value 0 (String c s).
Proof.
  destruct c as [[] [] [] [] [] [] [] []]; intros Hc; try reflexivity;
    exfalso; apply Hc; reflexivity.
Qed.

(** The decimal text of an integer denotes that integer. *)
Lemma decimal_text_value (v : Z) : decimal_value (decimal_text v) = Some v.
Proof.
  destruct v as [|p|p]; [reflexivity| |]; unfold decimal_text;
    pose proof (digits_value_of_uint (Pos.to_uint p)) as Hd;
    rewrite DecimalPos.Unsigned.of_to in Hd;
    destruct (digits_text_first p) as (c & s & Hs & Hc); rewrite Hs in *.
  - now rewrite (decimal_value_digits c s Hc).
  - unfold decimal_value. rewrite Hd. reflexivity.
Qed.

(** The cell the code looks up is the cell of the layout. *)
Lemma display_val_shown (grid : list Z) (i j : nat) :
  display_val grid i j = cell_shown grid i j.
Proof.
  unfold display_val, cell_shown.
  destruct (Nat.ltb_spec (i * 9 + j) (List.length grid)) as [Hin|Hout].
  - rewrite (nth_error_nth' grid 0 Hin).
    destruct (nth (i * 9 + j) grid 0) as [|p|p] eqn:Hv; [reflexivity| |];
      rewrite <- Hv at 2; rewrite str_of_int_decimal; now rewrite Hv.
  - apply nth_error_None in Hout. now rewrite Hout.
Qed.

Section Loops.

(** The two loops, over any cell text and any row text. *)
Variable cell : nat -> string.
Variable row : nat -> string.

Lemma cells_loop :
  (fold_left
     (fun row_str j =>
        (if ((0 <? j) && (j mod 3 =? 0))%nat then row_str ++ "| " else row_str)
        ++ (cell j ++ " "))
     (seq 0 9) "| " ++ "|"
   = "| " ++ (cell 0%nat ++ " ") ++ (cell 1%nat ++ " ") ++ (cell 2%nat ++ " ")
      ++ "| " ++ (cell 3%nat ++ " ") ++ (cell 4%nat ++ " ") ++ (cell 5%nat ++ " ")
      ++ "| " ++ (cell 6%nat ++ " ") ++ (cell 7%nat ++ " ") ++ (cell 8%nat ++ " ")
      ++ "|")%string.
Proof.
  cbn [fold_left seq Nat.ltb Nat.leb Nat.eqb Nat.modulo Nat.divmod andb fst snd Nat.sub].
  rewrite !str_app_assoc. reflexivity.
Qed.

Lemma rows_loop (out : string) :
  (fold_left
     (fun out i =>
        (if ((0 <? i) && (i mod 3 =? 0))%nat
         then out ++ print "-----------------------------------" else out)
        ++ print (row i))
     (seq 0 9) out
   = out ++ print (row 0%nat) ++ print (row 1%nat) ++ print (row 2%nat)
      ++ print (str_repeat "-" 35)
      ++ print (row 3%nat) ++ print (row 4%nat) ++ print (row 5%nat)
      ++ print (str_repeat "-" 35)
      ++ print (row 6%nat) ++ print (row 7%nat) ++ print (row 8%nat))%string.
Proof.
  cbn [fold_left seq Nat.ltb Nat.leb Nat.eqb Nat.modulo Nat.divmod andb fst snd Nat.sub].
  rewrite !str_app_assoc. reflexivity.
Qed.

End Loops.

Lemma row_text_layout (grid : list Z) (i : nat) :
  row_text grid i = layout_row grid i.
Proof.
  unfold row_text, cell_step.
  rewrite (cells_loop (fun j => format_right 2 (display_val grid i j))).
  unfold layout_row, block, cell_field.
  rewrite !display_val_shown, !format_right_2, !str_app_assoc. reflexivity.
Qed.

(** C8: for every label and every grid, [print_grid] writes exactly
    the lines of the layout, each followed by a line feed: an empty
    line, 37 [=], the label, 37 [=], the nine rows with a line of 35
    [-] before rows 3 and 6, 37 [=] and an empty line; a row is a bar,
    nine cells with a bar before columns 3 and 6, and a closing bar; a
    cell is right-aligned in width 2 and followed by a space, and shows
    the integer at index [i*9+j] in decimal, or a dot when that integer
    is 0 or the index is beyond the grid.  The decimal text of the
    layout denotes the integer it stands for, and the text written for
    a grid of eleven values is given in full. *)
Theorem print_grid_layout (label : string) (grid : list Z) :
  print_grid label grid = layout_text label grid
  /\ (forall v : Z, decimal_value (decimal_text v) = Some v)
  /\ print_grid "Начальная сетка:" [5; 0; 3; 12; -4; 100; 99; 0; 7; 10; 1]
     = "
=====================================
Начальная сетка:
=====================================
|  5  .  3 | 12 -4 100 | 99  .  7 |
| 10  1  . |  .  .  . |  .  .  . |
|  .  .  . |  .  .  . |  .  .  . |
-----------------------------------
|  .  .  . |  .  .  . |  .  .  . |
|  .  .  . |  .  .  . |  .  .  . |
|  .  .  . |  .  .  . |  .  .  . |
-----------------------------------
|  .  .  . |  .  .  . |  .  .  . |
|  .  .  . |  .  .  . |  .  .  . |
|  .  .  . |  .  .  . |  .  .  . |
=====================================

".
Proof.
  split; [|split; [exact decimal_text_value|reflexivity]].
  unfold print_grid, row_step.
  rewrite (rows_loop (row_text grid)).
  rewrite !row_text_layout, !print_line_feed.
  unfold layout_text, layout_lines. cbn [fold_right str_repeat].
  rewrite !str_app_assoc. reflexivity.
Qed.

(** A row with a zero, a negative value and a value of three digits. *)
Example row_text_sample :
  row_text [5; 0; 3; 12; -4; 100] 0 = "|  5  .  3 | 12 -4 100 |  .  .  . |".
Proof. reflexivity. Qed.

Example rule_lengths :
  String.length (str_repeat "=" 37) = 37%nat
  /\ String.length "-----------------------------------" = 35%nat
  /\ String.length (row_text [] 0) = 34%nat.
Proof. repeat split; reflexivity. Qed.

(** * Further properties of the collection loop *)

Section Collector_structure.

Context {B : PyBuiltins}.

Lemma line_value_parses line v : line_value line = Some v <-> parses_to line v.
Proof.
  unfold line_value, parses_to.
  destruct (is_empty (str_strip line)); [split; [discriminate|intros [H _]; discriminate H]|].
  destruct (int_of_str (str_strip line)) as [num|[]]; split.
  - intros H. injection H as ->. now split.
  - intros [_ H]. now injection H as ->.
  - discriminate.
  - intros [_ H]. discriminate H.
Qed.

Lemma line_value_none line :
  line_value line = None ->
  is_empty (str_strip line) = true \/ int_of_str (str_strip line) = inr ValueError.
Proof.
  unfold line_value.
  destruct (is_empty (str_strip line)); [now left|].
  destruct (int_of_str (str_strip line)) as [num|[]]; [discriminate|now right].
Qed.

Lemma is_cell_value v : is_cell v = true <-> cell_value v.
Proof.
  unfold is_cell, cell_value.
  destruct (Z.eqb_spec v 100), (Z.eqb_spec v 200), (Z.ltb_spec v 0),
    (Z.leb_spec 100 v); simpl; split; intros Hc; try discriminate; try lia;
    reflexivity.
Qed.

(** The loop only appends to [grids]: what it does from a state is what
    it does from the same buffer and no grid, after the grids it had. *)
Lemma step_grids_prefix b gs line :
  step (mkState b gs) line
  = mkState (current_grid (step (mkState b []) line))
            (gs ++ grids (step (mkState b []) line)).
Proof.
  unfold step. cbn [current_grid grids].
  destruct (is_empty (str_strip line)); [cbn; now rewrite app_nil_r|].
  destruct (int_of_str (str_strip line)) as [num|[]]; [|cbn; now rewrite app_nil_r].
  destruct (num =? 100).
  { destruct (truthy b); cbn; now rewrite ?app_nil_r. }
  destruct (num =? 200).
  { destruct (truthy b && (81 <=? len b)); cbn; now rewrite ?app_nil_r. }
  destruct ((num <? 0) || ((100 <=? num) && negb false));
    [cbn; now rewrite app_nil_r|].
  destruct (81 <=? len (b ++ [num])); cbn; now rewrite ?app_nil_r.
Qed.

Lemma run_grids_prefix lines :
  forall b gs,
    run (mkState b gs) lines
    = mkState (current_grid (run (mkState b []) lines))
              (gs ++ grids (run (mkState b []) lines)).
Proof.
  induction lines as [|line lines IH]; intros b gs; simpl.
  - now rewrite app_nil_r.
  - rewrite (step_grids_prefix b gs).
    rewrite IH. symmetry.
    destruct (step (mkState b []) line) as [b' gs'] eqn:Hs. cbn [current_grid grids].
    rewrite (IH b' gs'). cbn [current_grid grids]. now rewrite app_assoc.
Qed.

Lemma state_after_app pre post :
  state_after (pre ++ post) = run (state_after pre) post.
Proof. apply run_app. Qed.

(** After a marker the buffer is empty. *)
Lemma step_marker_empties st line :
  is_marker line -> current_grid (step st line) = [].
Proof.
  intros [H|H]; [rewrite (step_marker_100 _ _ H)|rewrite (step_marker_200 _ _ H)];
    reflexivity.
Qed.

(** A marker met with an empty buffer changes nothing. *)
Lemma step_marker_on_empty st line :
  is_marker line -> current_grid st = [] -> step st line = st.
Proof.
  intros [H|H] He;
    [rewrite (step_marker_100 _ _ H)|rewrite (step_marker_200 _ _ H)];
    destruct st as [b gs]; cbn [current_grid grids] in *; subst b; reflexivity.
Qed.

End Collector_structure.

Section Collector_conservation.

Context {B : PyBuiltins}.

Lemma collect_app_grids pre post :
  collect (pre ++ post)
  = collect pre ++ grids (run (mkState (current_grid (state_after pre)) []) post).
Proof.
  rewrite !collect_grids, state_after_app.
  destruct (state_after pre) as [b gs]. cbn [current_grid grids].
  now rewrite run_grids_prefix.
Qed.

Lemma collect_after_marker pre line post :
  is_marker line ->
  collect (pre ++ line :: post) = collect (pre ++ [line]) ++ collect post.
Proof.
  intros Hm.
  replace (pre ++ line :: post) with ((pre ++ [line]) ++ post)
    by (now rewrite <- app_assoc).
  rewrite collect_app_grids, state_after_snoc, (step_marker_empties _ _ Hm).
  now rewrite (collect_grids post).
Qed.

(** 81 cell lines read with an empty buffer leave one more grid and an
    empty buffer. *)
Lemma run_81_cells lines vals gs :
  List.length lines = 81%nat ->
  Forall2 parses_to lines vals -> Forall cell_value vals ->
  run (mkState [] gs) lines = mkState [] (gs ++ [vals]).
Proof.
  intros Hlen Hp Hv.
  destruct (exists_last (l := lines)) as (front & line & ->);
    [intros ->; discriminate|].
  apply Forall2_app_inv_l in Hp as (vfront & vlast & Hfront & Hlast & ->).
  inversion Hlast as [|? v ? ? Hline Hnil]; subst. inversion Hnil; subst.
  apply Forall_app in Hv as [Hvf Hvl]. inversion Hvl as [|? ? Hv1 _]; subst.
  rewrite length_app in Hlen. simpl in Hlen.
  pose proof (Forall2_length Hfront) as Hsame.
  rewrite run_snoc.
  rewrite (run_cells front vfront (mkState [] gs) Hfront Hvf); [|simpl; lia].
  rewrite (step_cell _ _ _ Hline Hv1). cbn [current_grid grids app].
  destruct (Z.leb_spec 81 (len (vfront ++ [v]))) as [_|Hlt].
  - rewrite firstn_all2; [reflexivity|]. rewrite length_app. simpl. lia.
  - unfold len in Hlt. rewrite length_app in Hlt. simpl in Hlt. lia.
Qed.

Lemma cell_values_cons line lines :
  cell_values (line :: lines) = cell_values [line] ++ cell_values lines.
Proof. unfold cell_values. simpl. now rewrite app_nil_r. Qed.

(** What a line adds to the values held, when it is not the marker
    200. *)
Lemma step_conserves st line :
  buffer_short st -> ~ parses_to line 200 ->
  List.concat (grids (step st line)) ++ current_grid (step st line)
  = (List.concat (grids st) ++ current_grid st) ++ cell_values [line].
Proof.
  intros Hs H200. unfold cell_values. simpl. rewrite app_nil_r.
  destruct (line_value line) as [v|] eqn:Hv.
  - apply line_value_parses in Hv.
    destruct (is_cell v) eqn:Hc.
    + apply is_cell_value in Hc. rewrite (step_cell _ _ _ Hv Hc).
      unfold buffer_short in Hs.
      destruct (Z.leb_spec 81 (len (current_grid st ++ [v]))) as [_|_];
        cbn [current_grid grids].
      * rewrite firstn_all2 by (rewrite length_app; simpl; lia).
        rewrite concat_app. simpl. now rewrite !app_nil_r, app_assoc.
      * now rewrite app_assoc.
    + rewrite app_nil_r.
      destruct (Z.eq_dec v 100) as [->|H100].
      * rewrite (step_marker_100 _ _ Hv). cbn [current_grid grids].
        destruct (current_grid st) as [|x xs]; simpl; [reflexivity|].
        rewrite concat_app. simpl. now rewrite !app_nil_r.
      * destruct (Z.eq_dec v 200) as [->|Hn200]; [contradiction|].
        rewrite step_skip; [reflexivity|].
        right; right. exists v. split; [exact Hv|].
        assert (Hnc : ~ cell_value v)
          by (intros Hcv; apply is_cell_value in Hcv; congruence).
        unfold cell_value in Hnc. lia.
  - rewrite app_nil_r. rewrite step_skip; [reflexivity|].
    destruct (line_value_none _ Hv); auto.
Qed.

Lemma run_conserves lines :
  forall st,
    buffer_short st -> Forall (fun line => ~ parses_to line 200) lines ->
    List.concat (grids (run st lines)) ++ current_grid (run st lines)
    = (List.concat (grids st) ++ current_grid st) ++ cell_values lines.
Proof.
  induction lines as [|line lines IH]; intros st Hs Hl.
  - simpl. now rewrite app_nil_r.
  - inversion Hl as [|? ? H1 H2]; subst. simpl run.
    rewrite (IH (step st line)); [|now apply step_buffer_short|exact H2].
    rewrite (step_conserves st line Hs H1), (cell_values_cons line lines).
    now rewrite app_assoc.
Qed.

(** Without the marker 100 only full grids are appended. *)
Lemma run_full_grids lines :
  forall st,
    buffer_short st -> Forall (fun line => ~ parses_to line 100) lines ->
    Forall (fun g => List.length g = 81%nat) (grids st) ->
    Forall (fun g => List.length g = 81%nat) (grids (run st lines)).
Proof.
  induction lines as [|line lines IH]; intros st Hs Hl Hg; [exact Hg|].
  inversion Hl as [|? ? H1 H2]; subst. simpl run.
  apply IH; [now apply step_buffer_short|exact H2|].
  destruct (step_cases_short st line Hs)
    as [H|[[_ [_ H]]|[[Hp _]|[[_ H]|[[v [_ [_ [_ H]]]]|[v [_ [_ [Hlen H]]]]]]]]];
    try contradiction; rewrite H; cbn [grids]; forall_pieces.
Qed.

Lemma length_concat_full (gs : list (list Z)) :
  Forall (fun g => List.length g = 81%nat) gs ->
  List.length (List.concat gs) = (81 * List.length gs)%nat.
Proof.
  induction 1 as [|g gs Hg _ IH]; [reflexivity|].
  simpl List.concat. rewrite length_app, IH, Hg. simpl List.length. lia.
Qed.

End Collector_conservation.

(** * What the collector guarantees *)

(** X1: reading more input never changes or removes a grid already
    collected: the grids of a prefix of the input are the first grids
    of the whole input, and the rest is what the loop collects from the
    remaining lines, starting with the buffer the prefix left. *)
Theorem collect_append_only (B : PyBuiltins) (pre post : list string) :
  collect (pre ++ post)
  = collect pre ++ grids (run (mkState (current_grid (state_after pre)) []) post)
  /\ firstn (List.length (collect pre)) (collect (pre ++ post)) = collect pre.
Proof.
  split; [apply collect_app_grids|].
  rewrite collect_app_grids, firstn_app, firstn_all, Nat.sub_diag.
  simpl. now rewrite app_nil_r.
Qed.

(** X2: a marker cuts the input in two parts that are collected
    independently: the grids are those of the lines up to the marker,
    followed by those of the lines after it. *)
Theorem collect_split_at_marker (B : PyBuiltins) (pre post : list string)
    (line : string) :
  is_marker line ->
  collect (pre ++ line :: post) = collect (pre ++ [line]) ++ collect post.
Proof.
  apply collect_after_marker.
Qed.

Lemma collect_split_at_marker_witness :
  collect (B := ascii_builtins) (["1"; "2"] ++ "100" :: ["3"; "100"])
  = collect (B := ascii_builtins) (["1"; "2"] ++ ["100"])
    ++ collect (B := ascii_builtins) ["3"; "100"].
Proof.
  apply (collect_split_at_marker ascii_builtins ["1"; "2"] ["3"; "100"] "100").
  left. split; reflexivity.
Defined.

(** X3: the marker 200 throws the buffer away: the values read since
    the last flush appear in no grid, and the grids are those of the
    lines before the marker followed by those of the lines after it. *)
Theorem marker_200_drops_buffer (B : PyBuiltins) (pre post : list string)
    (line : string) :
  parses_to line 200 ->
  collect (pre ++ line :: post) = collect pre ++ collect post.
Proof.
  intros Hp.
  replace (pre ++ line :: post) with ((pre ++ [line]) ++ post)
    by (now rewrite <- app_assoc).
  rewrite collect_app_grids, state_after_snoc.
  rewrite (collect_grids (pre ++ [line])), state_after_snoc.
  pose proof (reachable_buffer_short pre) as Hs. unfold buffer_short in Hs.
  rewrite (step_marker_200 _ _ Hp).
  destruct (Z.leb_spec 81 (len (current_grid (state_after pre)))) as [Hge|_];
    [unfold len in Hge; lia|].
  rewrite andb_false_r. cbn [current_grid grids].
  now rewrite (collect_grids pre), (collect_grids post).
Qed.

Lemma marker_200_drops_buffer_witness :
  collect (B := ascii_builtins) (["1"; "100"; "2"; "3"] ++ "200" :: ["4"; "100"])
  = [[1]; [4]].
Proof.
  apply (marker_200_drops_buffer ascii_builtins ["1"; "100"; "2"; "3"]
           ["4"; "100"] "200").
  split; reflexivity.
Defined.

(** X4: every value of every collected grid is an integer from 0 to
    99: markers, negative values and values of 100 or more are never
    stored. *)
Theorem collected_values_in_range (B : PyBuiltins) (lines : list string) :
  Forall (Forall cell_value) (collect lines).
Proof. rewrite collect_grids. apply reachable_invariant. Qed.

(** X5: when no line is the marker 200, no cell value is lost or
    reordered while the input is read: the collected grids, one after
    the other, followed by the buffer left at the end of the input, are
    the cell values of the input in their order. *)
Theorem cells_conserved_without_200 (B : PyBuiltins) (lines : list string) :
  Forall (fun line => ~ parses_to line 200) lines ->
  List.concat (collect lines) ++ current_grid (state_after lines)
  = cell_values lines.
Proof.
  intros Hl. rewrite collect_grids. unfold state_after.
  rewrite (run_conserves lines initial_state initial_buffer_short Hl).
  reflexivity.
Qed.

Lemma cells_conserved_without_200_witness :
  List.concat (collect (B := ascii_builtins) ["1"; "100"; "x"; "2"; "150"; "3"])
  ++ current_grid (state_after (B := ascii_builtins) ["1"; "100"; "x"; "2"; "150"; "3"])
  = [1; 2; 3].
Proof.
  apply (cells_conserved_without_200 ascii_builtins
           ["1"; "100"; "x"; "2"; "150"; "3"]).
  repeat (apply Forall_cons; [intros [_ H]; discriminate H|]). apply Forall_nil.
Defined.

(** X6: when no line is a marker, the grids are the consecutive blocks
    of 81 cell values of the input: each grid has exactly 81 cells,
    there are as many grids as full blocks, and together they are the
    cell values up to the last full block. *)
Theorem collect_without_markers (B : PyBuiltins) (lines : list string) :
  Forall (fun line => ~ is_marker line) lines ->
  Forall (fun g => List.length g = 81%nat) (collect lines)
  /\ List.length (collect lines) = (List.length (cell_values lines) / 81)%nat
  /\ List.concat (collect lines)
     = firstn (81 * (List.length (cell_values lines) / 81)) (cell_values lines).
Proof.
  intros Hl.
  assert (H100 : Forall (fun line => ~ parses_to line 100) lines)
    by (eapply Forall_impl; [|exact Hl]; intros l Hn Hp; apply Hn; now left).
  assert (H200 : Forall (fun line => ~ parses_to line 200) lines)
    by (eapply Forall_impl; [|exact Hl]; intros l Hn Hp; apply Hn; now right).
  pose proof (run_conserves lines initial_state initial_buffer_short H200) as Hc.
  pose proof (run_full_grids lines initial_state initial_buffer_short H100
                (Forall_nil _)) as Hg.
  pose proof (reachable_buffer_short lines) as Hs.
  unfold buffer_short, state_after in Hs. simpl in Hc.
  rewrite collect_grids. unfold state_after.
  set (st := run initial_state lines) in *.
  pose proof (length_concat_full _ Hg) as Hlen.
  assert (Hq : List.length (grids st) = (List.length (cell_values lines) / 81)%nat).
  { apply (Nat.div_unique _ 81 _ (List.length (current_grid st))); [lia|].
    rewrite <- Hc, length_app, Hlen. reflexivity. }
  split; [exact Hg|]. split; [exact Hq|].
  rewrite <- Hq, <- Hlen, <- Hc, firstn_app, firstn_all, Nat.sub_diag.
  simpl. now rewrite app_nil_r.
Qed.

Lemma collect_without_markers_witness :
  Forall (fun g => List.length g = 81%nat)
    (collect (B := ascii_builtins) (lines_81_cells ++ ["x"; "8"; "9"]))
  /\ List.length (collect (B := ascii_builtins) (lines_81_cells ++ ["x"; "8"; "9"]))
     = 1%nat.
Proof.
  assert (H : Forall (fun line => ~ is_marker (B := ascii_builtins) line)
                (lines_81_cells ++ ["x"; "8"; "9"])).
  { apply Forall_app. split.
    - apply Forall_forall. intros l Hin. apply repeat_spec in Hin. subst l.
      intros [[_ H]|[_ H]]; discriminate H.
    - repeat (apply Forall_cons; [intros [[_ H]|[_ H]]; discriminate H|]).
      apply Forall_nil. }
  destruct (collect_without_markers ascii_builtins _ H) as [H1 [H2 _]].
  split; [exact H1|exact H2].
Defined.

(** X7: an unfinished grid at the end of the input is dropped: cell
    lines that do not bring the buffer to 81 values add no grid. *)
Theorem trailing_cells_dropped (B : PyBuiltins) (pre post : list string)
    (vals : list Z) :
  Forall2 parses_to post vals ->
  Forall cell_value vals ->
  (List.length (current_grid (state_after pre)) + List.length vals <= 80)%nat ->
  collect (pre ++ post) = collect pre.
Proof.
  intros Hp Hv Hl.
  rewrite !collect_grids, state_after_app.
  now rewrite (run_cells post vals (state_after pre) Hp Hv Hl).
Qed.

Lemma trailing_cells_dropped_witness :
  collect (B := ascii_builtins) (lines_81_cells ++ ["1"; "2"; "3"])
  = collect (B := ascii_builtins) lines_81_cells.
Proof.
  apply (trailing_cells_dropped ascii_builtins lines_81_cells ["1"; "2"; "3"]
           [1; 2; 3]).
  - repeat (apply Forall2_cons; [split; reflexivity|]). apply Forall2_nil.
  - repeat (apply Forall_cons; [unfold cell_value; lia|]). apply Forall_nil.
  - vm_compute. lia.
Defined.

(** X8: a marker met with an empty buffer does nothing: a marker at the
    start of the input, and a marker that directly follows a marker,
    can be removed without changing the grids. *)
Theorem marker_on_empty_buffer (B : PyBuiltins) (pre post : list string)
    (m1 m2 : string) :
  is_marker m1 -> is_marker m2 ->
  collect (m1 :: post) = collect post
  /\ collect (pre ++ m1 :: m2 :: post) = collect (pre ++ m1 :: post).
Proof.
  intros H1 H2. split.
  - apply (collect_skip_line [] m1 post).
    now apply step_marker_on_empty.
  - replace (pre ++ m1 :: m2 :: post) with ((pre ++ [m1]) ++ m2 :: post)
      by (now rewrite <- app_assoc).
    replace (pre ++ m1 :: post) with ((pre ++ [m1]) ++ post)
      by (now rewrite <- app_assoc).
    apply collect_skip_line. apply step_marker_on_empty; [exact H2|].
    rewrite state_after_snoc. now apply step_marker_empties.
Qed.

Lemma marker_on_empty_buffer_witness :
  collect (B := ascii_builtins) ("100" :: ["5"; "100"])
  = collect (B := ascii_builtins) ["5"; "100"]
  /\ collect (B := ascii_builtins) (["1"] ++ "100" :: "200" :: ["5"; "100"])
     = collect (B := ascii_builtins) (["1"] ++ "100" :: ["5"; "100"]).
Proof.
  apply (marker_on_empty_buffer ascii_builtins ["1"] ["5"; "100"] "100" "200").
  - left. split; reflexivity.
  - right. split; reflexivity.
Defined.

(** * Further properties of the printing part *)

Lemma str_length_app (a b : string) :
  String.length (a ++ b) = (String.length a + String.length b)%nat.
Proof. induction a as [|x a IH]; simpl; [reflexivity|now rewrite IH]. Qed.

(** The rows depend on the grid through the nine cells they show. *)
Lemma row_text_ext (g g' : list Z) (i : nat) :
  (forall j, (j < 9)%nat -> display_val g i j = display_val g' i j) ->
  row_text g i = row_text g' i.
Proof.
  intros H. unfold row_text, cell_step.
  rewrite (cells_loop (fun j => format_right 2 (display_val g i j))).
  rewrite (cells_loop (fun j => format_right 2 (display_val g' i j))).
  rewrite (H 0%nat), (H 1%nat), (H 2%nat), (H 3%nat), (H 4%nat), (H 5%nat),
    (H 6%nat), (H 7%nat), (H 8%nat) by lia.
  reflexivity.
Qed.

(** The text written, with the two loops unrolled. *)
Lemma print_grid_rows (label : string) (grid : list Z) :
  print_grid label grid
  = ((print (nl ++ str_repeat "=" 37) ++ print label ++ print (str_repeat "=" 37))
     ++ print (row_text grid 0) ++ print (row_text grid 1) ++ print (row_text grid 2)
     ++ print (str_repeat "-" 35)
     ++ print (row_text grid 3) ++ print (row_text grid 4) ++ print (row_text grid 5)
     ++ print (str_repeat "-" 35)
     ++ print (row_text grid 6) ++ print (row_text grid 7) ++ print (row_text grid 8)
     ++ print (str_repeat "=" 37) ++ print "")%string.
Proof.
  unfold print_grid, row_step. rewrite (rows_loop (row_text grid)).
  rewrite !str_app_assoc. reflexivity.
Qed.

Lemma print_grid_ext (label : string) (g g' : list Z) :
  (forall i j, (i < 9)%nat -> (j < 9)%nat -> display_val g i j = display_val g' i j) ->
  print_grid label g = print_grid label g'.
Proof.
  intros H. rewrite !print_grid_rows.
  rewrite (row_text_ext g g' 0), (row_text_ext g g' 1), (row_text_ext g g' 2),
    (row_text_ext g g' 3), (row_text_ext g g' 4), (row_text_ext g g' 5),
    (row_text_ext g g' 6), (row_text_ext g g' 7), (row_text_ext g g' 8)
    by (intros j Hj; apply H; lia).
  reflexivity.
Qed.

(** The text of a cell value is one or two characters. *)
Lemma cell_text_width (v : Z) :
  cell_value v ->
  String.length (format_right 2 (if v =? 0 then "." else str_of_int v)) = 2%nat.
Proof.
  intros Hv. unfold cell_value in Hv.
  assert (Hall : forallb
                   (fun n => Nat.eqb
                               (String.length
                                  (format_right 2
                                     (if Z.of_nat n =? 0 then "."
                                      else str_of_int (Z.of_nat n)))) 2)
                   (seq 0 100) = true) by (vm_compute; reflexivity).
  rewrite forallb_forall in Hall.
  specialize (Hall (Z.to_nat v)).
  rewrite Z2Nat.id in Hall by lia.
  apply Nat.eqb_eq, Hall, in_seq. lia.
Qed.

Lemma display_val_width (grid : list Z) (i j : nat) :
  Forall cell_value grid ->
  String.length (format_right 2 (display_val grid i j)) = 2%nat.
Proof.
  intros Hg. unfold display_val.
  destruct (Nat.ltb_spec (i * 9 + j) (List.length grid)) as [Hin|_]; [|reflexivity].
  apply cell_text_width.
  rewrite Forall_forall in Hg. apply Hg, nth_In, Hin.
Qed.

Lemma row_text_width (grid : list Z) (i : nat) :
  Forall cell_value grid -> String.length (row_text grid i) = 34%nat.
Proof.
  intros Hg. unfold row_text, cell_step.
  rewrite (cells_loop (fun j => format_right 2 (display_val grid i j))).
  repeat (rewrite str_length_app; try rewrite (display_val_width grid i _ Hg)).
  reflexivity.
Qed.

(** The text on standard output, by the number of grids. *)
Lemma format_sudoku_text {B : PyBuiltins} (lines : list string) :
  format_sudoku lines =
    match collect lines with
    | [] => ""
    | [g] => if len g =? 81
             then (print_grid label_initial g ++ print note_missing)%string
             else print_grid label_initial g
    | g0 :: g1 :: _ =>
        (print_grid label_initial g0 ++ print_grid label_solved g1)%string
    end.
Proof.
  unfold format_sudoku.
  destruct (collect lines) as [|g0 [|g1 rest]].
  - reflexivity.
  - rewrite display_one. destruct (len g0 =? 81); reflexivity.
  - rewrite display_many. reflexivity.
Qed.

Lemma print_grid_not_empty (label : string) (grid : list Z) :
  print_grid label grid <> "".
Proof. rewrite print_grid_rows. discriminate. Qed.

(** X9: [print_grid] never shows a cell beyond the 81st: a longer grid
    prints like its first 81 cells. *)
Theorem print_grid_first_81 (label : string) (grid : list Z) :
  print_grid label (firstn 81 grid) = print_grid label grid.
Proof.
  apply print_grid_ext. intros i j Hi Hj.
  rewrite !display_val_shown. unfold cell_shown. rewrite nth_error_firstn.
  destruct (Nat.ltb_spec (i * 9 + j) 81); [reflexivity|lia].
Qed.

(** X10: a missing cell prints like an empty cell: a grid followed by
    any number of zeros prints like the grid itself. *)
Theorem print_grid_zero_padding (label : string) (grid : list Z) (n : nat) :
  print_grid label (grid ++ repeat 0 n) = print_grid label grid.
Proof.
  apply print_grid_ext. intros i j _ _.
  rewrite !display_val_shown. unfold cell_shown.
  destruct (Nat.lt_ge_cases (i * 9 + j) (List.length grid)) as [Hin|Hout].
  - now rewrite nth_error_app1.
  - rewrite nth_error_app2 by exact Hout.
    rewrite (proj2 (nth_error_None grid (i * 9 + j)) Hout).
    destruct (Nat.lt_ge_cases (i * 9 + j - List.length grid) n) as [Hk|Hk].
    + now rewrite nth_error_repeat.
    + rewrite (proj2 (nth_error_None _ _)); [reflexivity|].
      now rewrite repeat_length.
Qed.

(** X11: the table of a collected grid is aligned: whatever the input,
    every row printed for a collected grid has exactly 34 characters,
    since every cell, value or dot, fills two. *)
Theorem collected_rows_aligned (B : PyBuiltins) (lines : list string) :
  Forall (fun g => forall i : nat, String.length (row_text g i) = 34%nat)
    (collect lines).
Proof.
  rewrite collect_grids.
  destruct (reachable_invariant lines) as [_ [_ [[_ Hv] _]]].
  eapply Forall_impl; [|exact Hv].
  intros g Hg i. now apply row_text_width.
Qed.

(** A value of three digits makes its row longer. *)
Example row_text_wide : String.length (row_text [100] 0) = 35%nat.
Proof. reflexivity. Qed.

(** X12: once two grids are collected the output is fixed: whatever
    follows in the input, the script prints the same text. *)
Theorem output_fixed_after_two_grids (B : PyBuiltins) (pre post : list string) :
  (2 <= List.length (collect pre))%nat ->
  format_sudoku (pre ++ post) = format_sudoku pre.
Proof.
  intros H. rewrite !format_sudoku_text, collect_app_grids.
  destruct (collect pre) as [|g0 [|g1 rest]]; simpl in H; try lia.
  reflexivity.
Qed.

Lemma output_fixed_after_two_grids_witness :
  format_sudoku (B := ascii_builtins) (lines_two_grids ++ ["9"; "100"; "hello"])
  = format_sudoku (B := ascii_builtins) lines_two_grids.
Proof.
  apply (output_fixed_after_two_grids ascii_builtins lines_two_grids
           ["9"; "100"; "hello"]).
  vm_compute. lia.
Defined.

(** X13: the script prints nothing at all exactly when no grid was
    collected: there is no message for an input without a grid. *)
Theorem silent_iff_no_grid (B : PyBuiltins) (lines : list string) :
  format_sudoku lines = "" <-> collect lines = [].
Proof.
  rewrite format_sudoku_text. split.
  - intros H. destruct (collect lines) as [|g0 [|g1 rest]]; [reflexivity| |];
      exfalso; destruct (print_grid label_initial g0) eqn:E;
      try (now apply print_grid_not_empty in E).
    + destruct (len g0 =? 81); discriminate H.
    + discriminate H.
  - intros ->. reflexivity.
Qed.

Lemma silent_iff_no_grid_witness :
  format_sudoku (B := ascii_builtins) ["1"; "2"; "200"; "hello"; "3"] = "".
Proof.
  apply (proj2 (silent_iff_no_grid ascii_builtins ["1"; "2"; "200"; "hello"; "3"])).
  reflexivity.
Defined.

(** X14: 81 cell lines that follow a marker always give a grid of
    exactly those values, whatever comes before the marker and after
    the 81 lines. *)
Theorem full_grid_after_marker (B : PyBuiltins) (pre post block : list string)
    (m : string) (vals : list Z) :
  is_marker m ->
  List.length block = 81%nat ->
  Forall2 parses_to block vals ->
  Forall cell_value vals ->
  collect (pre ++ m :: block ++ post)
  = collect (pre ++ [m]) ++ vals :: collect post.
Proof.
  intros Hm Hlen Hp Hv.
  rewrite (collect_after_marker pre m (block ++ post) Hm). f_equal.
  rewrite collect_app_grids.
  assert (Hst : state_after block = mkState [] [vals])
    by (apply (run_81_cells block vals [] Hlen Hp Hv)).
  rewrite (collect_grids block), Hst. cbn [current_grid grids app].
  now rewrite (collect_grids post).
Qed.

Lemma full_grid_after_marker_witness :
  collect (B := ascii_builtins) (["1"; "2"] ++ "200" :: lines_81_cells ++ ["5"; "100"])
  = collect (B := ascii_builtins) (["1"; "2"] ++ ["200"])
    ++ repeat 7 81 :: collect (B := ascii_builtins) ["5"; "100"].
Proof.
  apply (full_grid_after_marker ascii_builtins ["1"; "2"] ["5"; "100"]
           lines_81_cells "200" (repeat 7 81)).
  - right. split; reflexivity.
  - reflexivity.
  - unfold lines_81_cells. simpl repeat.
    repeat (apply Forall2_cons; [split; reflexivity|]). apply Forall2_nil.
  - simpl repeat.
    repeat (apply Forall_cons; [unfold cell_value; lia|]). apply Forall_nil.
Defined.
